(** * Four-vectors of relativistic kinematics (four_vector.py)

    A shallow embedding of [src/Python/medium/classes_relativity/four_vector.py],
    in two parts.

    Part I reads the formulas of the module over the real numbers ([R] of the
    Standard Library).  It carries what does not depend on how a number is
    represented: the symbolic values of the derived quantities in a scenario,
    the immutability of every instance, and the dispatch of the operators on
    the kind of their right operand.

    Part II reads the module over Python's numbers: exact ints and binary64
    floats, with rounding, overflow, infinities, nan and the sign of zero,
    and with the exceptions that CPython raises (module [IEEE]).  Every
    statement about what a constructor or an operator computes, stores or
    raises on arbitrary inputs is made there.

    Failures.  [math.sqrt], [math.log] and [/] raise on arguments outside their
    domain, [set_vector] raises always, and the operators answer
    [NotImplemented] to a foreign operand.  All of this is kept: every
    operation returns in an error monad. *)

From Stdlib Require Import ZArith Reals Lra Lia Bool String.
From Stdlib Require Floats.

Open Scope R_scope.

(** * Part I: the module over the real numbers *)

(** ** Python results: a value or a raised exception *)

Module Py.

Inductive exc : Type :=
| ValueError
| ZeroDivisionError
| AttributeError (msg : string)
| TypeError.

Inductive result (A : Type) : Type :=
| Ok (a : A)
| Raise (e : exc).

Arguments Ok {A} a.
Arguments Raise {A} e.

Definition bind {A B : Type} (m : result A) (k : A -> result B) : result B :=
  match m with
  | Ok a => k a
  | Raise e => Raise e
  end.

(** The value of [float('inf')], [-float('inf')], or a finite number. *)
Inductive xfloat : Type :=
| Fin (r : R)
| PInf
| NInf.

(** Unary minus as the source applies it to [float('inf')]. *)
Definition neg (x : xfloat) : xfloat :=
  match x with
  | Fin r => Fin (- r)
  | PInf => NInf
  | NInf => PInf
  end.

End Py.

Import Py.

Declare Scope py_scope.
Delimit Scope py_scope with py.
Notation "x <- m ;; k" := (bind m (fun x => k))
  (at level 61, m at next level, right associativity) : py_scope.
Open Scope py_scope.

(** ** The functions of Python's [math] module and the builtins in use

    These belong to Python, not to the repository; each is given its documented
    meaning on real arguments, domain errors included. *)

Module math.

(** [math.sqrt(x)]: [ValueError] below zero. *)
Definition sqrt (x : R) : result R :=
  if Rlt_dec x 0 then Raise ValueError
  else Ok (R_sqrt.sqrt x).

(** [math.log(x)]: [ValueError] at and below zero. *)
Definition log (x : R) : result R :=
  if Rle_dec x 0 then Raise ValueError
  else Ok (ln x).

Definition cos (x : R) : R := Rtrigo_def.cos x.
Definition sin (x : R) : R := Rtrigo_def.sin x.
Definition sinh (x : R) : R := Rtrigo_def.sinh x.

(** [math.atan2(y, x)]: the angle of the point [(x, y)], with the branch cut
    on the negative x axis and the value 0 at the origin. *)
Definition atan2 (y x : R) : R :=
  if Rlt_dec 0 x then atan (y / x)
  else if Rlt_dec x 0 then
    (if Rle_dec 0 y then atan (y / x) + PI else atan (y / x) - PI)
  else if Rlt_dec 0 y then PI / 2
  else if Rlt_dec y 0 then - (PI / 2)
  else 0.

End math.

(** [x / y]: [ZeroDivisionError] on a zero divisor. *)
Definition truediv (x y : R) : result R :=
  if Req_dec_T y 0 then Raise ZeroDivisionError
  else Ok (x / y).

(** [max(a, b)]: the first argument unless the second is greater. *)
Definition max (a b : R) : R :=
  if Rgt_dec b a then b else a.

(** [abs(x)]. *)
Definition abs (x : R) : R := Rabs x.

(** [x != y]. *)
Definition ne (x y : R) : {x <> y} + {x = y} :=
  match Req_dec_T x y with
  | left e => right e
  | right n => left n
  end.

(** ** The objects of the module *)

(** The four concrete classes. *)
Inductive variant : Type :=
| cPxPyPzE
| cPxPyPzM
| cPtEtaPhiE
| cPtEtaPhiM.

(** [__class__.__name__]. *)
Definition __name__ (c : variant) : string :=
  match c with
  | cPxPyPzE => "PxPyPzEFourVector"
  | cPxPyPzM => "PxPyPzMFourVector"
  | cPtEtaPhiE => "PtEtaPhiEFourVector"
  | cPtEtaPhiM => "PtEtaPhiMFourVector"
  end.

(** An instance: its class and the eight private attributes that
    [FourVector.__init__] sets. *)
Record instance : Type := mkInstance {
  __class__ : variant;
  _px : R;
  _py : R;
  _pz : R;
  _E : R;
  _pt : R;
  _eta : xfloat;
  _phi : R;
  _M : R
}.

(** The Python values that reach the operators and [set_vector] as arguments. *)
Inductive object : Type :=
| ObjFourVector (v : instance)
| ObjInt (n : Z)
| ObjFloat (x : xfloat)
| ObjStr (s : string)
| ObjNone
| NotImplemented.

(** [isinstance(o, FourVector)]. *)
Definition isinstance_FourVector (o : object) : bool :=
  match o with
  | ObjFourVector _ => true
  | _ => false
  end.

(** A method that may change its instance: the outcome of the call and the
    instance after it. *)
Definition method (A : Type) : Type := (result A * instance)%type.

(** ** class FourVector *)

Module FourVector.

(** The derived attributes, in the order the source assigns them:
    [_pt], [_phi], [_eta], [_M]. *)
Record derived : Type := mkDerived {
  d_pt : R;
  d_phi : R;
  d_eta : xfloat;
  d_M : R
}.

Definition _calculate_derived_quantities (px py pz E : R) : result derived :=
  pt <- math.sqrt (px ^ 2 + py ^ 2) ;;
  let phi := math.atan2 py px in
  p <- math.sqrt (px ^ 2 + py ^ 2 + pz ^ 2) ;;
  eta <- (if ne p (abs pz) then
            q <- truediv (p + pz) (p - pz) ;;
            l <- math.log q ;;
            Ok (Fin (0.5 * l))
          else
            Ok (if Rge_dec pz 0 then PInf else neg PInf)) ;;
  M <- math.sqrt (max (E ^ 2 - p ^ 2) 0) ;;
  Ok (mkDerived pt phi eta M).

(** [__init__] for an object of class [c]. *)
Definition __init__ (c : variant) (px py pz E : R) : result instance :=
  d <- _calculate_derived_quantities px py pz E ;;
  Ok (mkInstance c px py pz E (d_pt d) (d_eta d) (d_phi d) (d_M d)).

(** The read-only properties. *)
Definition px (self : instance) : R := _px self.
Definition py (self : instance) : R := _py self.
Definition pz (self : instance) : R := _pz self.
Definition E (self : instance) : R := _E self.
Definition pt (self : instance) : R := _pt self.
Definition eta (self : instance) : xfloat := _eta self.
Definition phi (self : instance) : R := _phi self.
Definition M (self : instance) : R := _M self.

End FourVector.

(** The message of every [set_vector]. *)
Definition immutable_msg : string :=
  "FourVector instances are immutable and cannot be modified.".

(** ** The four concrete classes *)

Module PxPyPzEFourVector.

Definition __init__ (px py pz E : R) : result instance :=
  FourVector.__init__ cPxPyPzE px py pz E.

Definition set_vector (self : instance) (px py pz E : object) : method unit :=
  (Raise (AttributeError immutable_msg), self).

End PxPyPzEFourVector.

Module PxPyPzMFourVector.

Definition __init__ (px py pz M : R) : result instance :=
  E <- math.sqrt (px ^ 2 + py ^ 2 + pz ^ 2 + M ^ 2) ;;
  FourVector.__init__ cPxPyPzM px py pz E.

Definition set_vector (self : instance) (px py pz M : object) : method unit :=
  (Raise (AttributeError immutable_msg), self).

End PxPyPzMFourVector.

Module PtEtaPhiEFourVector.

Definition __init__ (pt eta phi E : R) : result instance :=
  let px := pt * math.cos phi in
  let py := pt * math.sin phi in
  let pz := pt * math.sinh eta in
  FourVector.__init__ cPtEtaPhiE px py pz E.

Definition set_vector (self : instance) (pt eta phi E : object) : method unit :=
  (Raise (AttributeError immutable_msg), self).

End PtEtaPhiEFourVector.

Module PtEtaPhiMFourVector.

Definition __init__ (pt eta phi M : R) : result instance :=
  let px := pt * math.cos phi in
  let py := pt * math.sin phi in
  let pz := pt * math.sinh eta in
  E <- math.sqrt (px ^ 2 + py ^ 2 + pz ^ 2 + M ^ 2) ;;
  FourVector.__init__ cPtEtaPhiM px py pz E.

Definition set_vector (self : instance) (pt eta phi M : object) : method unit :=
  (Raise (AttributeError immutable_msg), self).

End PtEtaPhiMFourVector.

(** [self.set_vector(a, b, c, d)]: the method of the instance's own class. *)
Definition set_vector (self : instance) (a b c d : object) : method unit :=
  match __class__ self with
  | cPxPyPzE => PxPyPzEFourVector.set_vector self a b c d
  | cPxPyPzM => PxPyPzMFourVector.set_vector self a b c d
  | cPtEtaPhiE => PtEtaPhiEFourVector.set_vector self a b c d
  | cPtEtaPhiM => PtEtaPhiMFourVector.set_vector self a b c d
  end.

(** ** The operators of class FourVector

    They build a [PxPyPzEFourVector] and so come after that class.  The test
    [isinstance(other, FourVector)] is the match on the constructor
    [ObjFourVector]. *)

Definition __add__ (self : instance) (other : object) : result object :=
  match other with
  | ObjFourVector o =>
      v <- PxPyPzEFourVector.__init__
             (FourVector.px self + FourVector.px o)
             (FourVector.py self + FourVector.py o)
             (FourVector.pz self + FourVector.pz o)
             (FourVector.E self + FourVector.E o) ;;
      Ok (ObjFourVector v)
  | _ => Ok NotImplemented
  end.

Definition __sub__ (self : instance) (other : object) : result object :=
  match other with
  | ObjFourVector o =>
      v <- PxPyPzEFourVector.__init__
             (FourVector.px self - FourVector.px o)
             (FourVector.py self - FourVector.py o)
             (FourVector.pz self - FourVector.pz o)
             (FourVector.E self - FourVector.E o) ;;
      Ok (ObjFourVector v)
  | _ => Ok NotImplemented
  end.

(** [a + x] and [a - x] as the interpreter evaluates them for a four-vector
    [a]: the method of [a] first; on [NotImplemented] the reflected method of
    the right operand, which none of the values of [object] offers for a
    four-vector, so that the interpreter raises [TypeError] (unsupported
    operand types). *)
Definition binary_op (m : instance -> object -> result object)
    (a : instance) (x : object) : result object :=
  r <- m a x ;;
  match r with
  | NotImplemented => Raise TypeError
  | v => Ok v
  end.

Definition add (a : instance) (x : object) : result object :=
  binary_op __add__ a x.

Definition subtract (a : instance) (x : object) : result object :=
  binary_op __sub__ a x.

(** ** Closed forms of the derived attributes

    What [_calculate_derived_quantities] is shown below to return, written
    without the error monad. *)

(** The value that the [eta] assignment produces, as a pure function. *)
Definition eta_value (p pz : R) : xfloat :=
  if ne p (abs pz) then Fin (0.5 * ln ((p + pz) / (p - pz)))
  else if Rge_dec pz 0 then PInf else NInf.

(** The stored mass, as a pure function of the canonical attributes. *)
Definition M_value (px py pz E : R) : R :=
  sqrt (max (E ^ 2 - sqrt (px ^ 2 + py ^ 2 + pz ^ 2) ^ 2) 0).

(** * Part II: the module on Python's numbers

    Python's [int] is an exact integer and its [float] is an IEEE 754 binary64
    value.  Part II embeds the module over both, with the conversions,
    comparisons and exceptions of CPython's arithmetic and of its [math]
    module.  The functions that CPython takes from the platform's C library
    ([pow], [log], [atan2], [cos], [sin], [sinh]) are a parameter [L]: what is
    proved for every [L] holds on every platform. *)

Declare Scope ieee_scope.
Delimit Scope ieee_scope with ieee.

Module IEEE.

Import PrimFloat SpecFloat FloatOps.

Local Open Scope Z_scope.
Local Open Scope float_scope.
Local Open Scope bool_scope.

(** ** Exceptions and results *)

Inductive exc : Type :=
| ValueError
| ZeroDivisionError
| OverflowError
| TypeError.

Inductive result (A : Type) : Type :=
| Ok (a : A)
| Raise (e : exc).

Arguments Ok {A} a.
Arguments Raise {A} e.

Definition bind {A B : Type} (m : result A) (k : A -> result B) : result B :=
  match m with
  | Ok a => k a
  | Raise e => Raise e
  end.

Notation "x <- m ;; k" := (bind m (fun x => k))
  (at level 61, m at next level, right associativity) : ieee_scope.

Local Open Scope ieee_scope.

(** ** Numbers *)

(** The numbers the module is used with: an [int] or a [float]. *)
Inductive number : Type :=
| Int (n : Z)
| Float (f : float).

(** The functions of the C library that CPython calls for this module. *)
Record libm : Type := {
  c_pow : float -> float -> float;
  c_log : float -> float;
  c_atan2 : float -> float -> float;
  c_cos : float -> float;
  c_sin : float -> float;
  c_sinh : float -> float
}.

(** [Py_MATH_PI], the float nearest to pi. *)
Definition pi : float := 0x1.921fb54442d18p+1.

(** C's [copysign(m, s)]: the magnitude of [m] with the sign bit of [s]. *)
Definition copysign (m s : float) : float :=
  if get_sign s then - abs m else abs m.

(** [PyLong_AsDouble]: the nearest float, ties to even; [OverflowError] when
    the int is too large for a float. *)
Definition float_of_int (n : Z) : result float :=
  match binary_normalize prec emax n 0%Z false with
  | S754_infinity _ => Raise OverflowError
  | sf => Ok (SF2Prim sf)
  end.

(** The conversion of an operand that float arithmetic and the [math]
    functions apply. *)
Definition as_double (x : number) : result float :=
  match x with
  | Int n => float_of_int n
  | Float f => Ok f
  end.

(** The order of a float and an int, which Python decides exactly; nan is
    unordered. *)
Definition compare_float_int (f : float) (n : Z) : option comparison :=
  match Prim2SF f with
  | S754_nan => None
  | S754_infinity s => Some (if s then Lt else Gt)
  | S754_zero _ => Some (Z.compare 0 n)
  | S754_finite s m e =>
      let v := if s then Z.neg m else Z.pos m in
      Some (if Z.leb 0 e then Z.compare (v * 2 ^ e) n
            else Z.compare v (n * 2 ^ (- e)))
  end.

Definition compare_floats (a b : float) : option comparison :=
  match PrimFloat.compare a b with
  | FEq => Some Eq
  | FLt => Some Lt
  | FGt => Some Gt
  | FNotComparable => None
  end.

Definition cmp (x y : number) : option comparison :=
  match x, y with
  | Int a, Int b => Some (Z.compare a b)
  | Float a, Float b => compare_floats a b
  | Float a, Int b => compare_float_int a b
  | Int a, Float b => option_map CompOpp (compare_float_int b a)
  end.

(** [x == y], [x != y], [x > y], [x >= y]. *)
Definition eq (x y : number) : bool :=
  match cmp x y with
  | Some Eq => true
  | _ => false
  end.

Definition ne (x y : number) : bool := negb (eq x y).

Definition gt (x y : number) : bool :=
  match cmp x y with
  | Some Gt => true
  | _ => false
  end.

Definition ge (x y : number) : bool :=
  match cmp x y with
  | Some Gt | Some Eq => true
  | _ => false
  end.

(** [x + y], [x - y], [x * y]: exact on two ints; with a float operand the
    other one is converted and the float operation rounds, and overflows to
    an infinity without raising. *)
Definition number_add (x y : number) : result number :=
  match x, y with
  | Int a, Int b => Ok (Int (a + b))
  | _, _ => a <- as_double x ;; b <- as_double y ;; Ok (Float (a + b))
  end.

Definition number_sub (x y : number) : result number :=
  match x, y with
  | Int a, Int b => Ok (Int (a - b))
  | _, _ => a <- as_double x ;; b <- as_double y ;; Ok (Float (a - b))
  end.

Definition number_mul (x y : number) : result number :=
  match x, y with
  | Int a, Int b => Ok (Int (a * b))
  | _, _ => a <- as_double x ;; b <- as_double y ;; Ok (Float (a * b))
  end.

(** [a + y], [a - y] and [a / y] for a float [a]. *)
Definition float_add (a : float) (y : number) : result float :=
  b <- as_double y ;; Ok (a + b).

Definition float_sub (a : float) (y : number) : result float :=
  b <- as_double y ;; Ok (a - b).

Definition float_div (a b : float) : result float :=
  if b =? 0 then Raise ZeroDivisionError else Ok (a / b).

(** [iv ** 2] for a float [iv], as [float_pow] computes it: the special
    values are settled first, then the C library's [pow] is called on the
    absolute value; an infinite result of [pow] raises [OverflowError]. *)
Definition float_pow2 (L : libm) (iv : float) : result float :=
  if is_nan iv then Ok iv
  else if is_infinity iv then Ok (abs iv)
  else if iv =? 0 then Ok 0
  else
    let iv := if iv <? 0 then - iv else iv in
    if iv =? 1 then Ok 1
    else
      let ix := c_pow L iv 2 in
      if is_infinity ix then Raise OverflowError else Ok ix.

(** [x ** 2]. *)
Definition pow2 (L : libm) (x : number) : result number :=
  match x with
  | Int n => Ok (Int (n ^ 2))
  | Float f => r <- float_pow2 L f ;; Ok (Float r)
  end.

(** [abs(x)]. *)
Definition abs (x : number) : number :=
  match x with
  | Int n => Int (Z.abs n)
  | Float f => Float (PrimFloat.abs f)
  end.

(** [max(x, y)]: the first argument unless the second is greater. *)
Definition max (x y : number) : number :=
  if gt y x then y else x.

(** ** The [math] module *)

Module math.

(** The wrapper of the one-argument functions: a nan from an argument that
    is no nan is a [ValueError]; an infinity from a finite argument is an
    [OverflowError] where the function can overflow and a [ValueError]
    otherwise. *)
Definition math_1 (func : float -> float) (can_overflow : bool) (arg : number)
  : result float :=
  x <- as_double arg ;;
  let r := func x in
  if is_nan r && negb (is_nan x) then Raise ValueError
  else if is_infinity r && is_finite x then
    Raise (if can_overflow then OverflowError else ValueError)
  else Ok r.

(** The wrapper of the two-argument functions. *)
Definition math_2 (func : float -> float -> float) (a b : number)
  : result float :=
  x <- as_double a ;;
  y <- as_double b ;;
  let r := func x y in
  if is_nan r && negb (is_nan x) && negb (is_nan y) then Raise ValueError
  else if is_infinity r && is_finite x && is_finite y then Raise OverflowError
  else Ok r.

(** [m_log]: the C library's [log] on positive finite arguments, and the
    special values set by CPython. *)
Definition m_log (L : libm) (x : float) : float :=
  if is_finite x then
    if 0 <? x then c_log L x
    else if x =? 0 then neg_infinity
    else nan
  else if is_nan x then x
  else if 0 <? x then x
  else nan.

(** [m_atan2]: the C library's [atan2] away from zeros and infinities, and
    the special values set by CPython, which follow the signs of zeros. *)
Definition m_atan2 (L : libm) (y x : float) : float :=
  if is_nan x || is_nan y then nan
  else if is_infinity y then
    if is_infinity x then
      if copysign 1 x =? 1 then copysign (0.25 * pi) y
      else copysign (0.75 * pi) y
    else copysign (0.5 * pi) y
  else if is_infinity x || (y =? 0) then
    if copysign 1 x =? 1 then copysign 0 y
    else copysign pi y
  else c_atan2 L y x.

Definition sqrt (x : number) : result float :=
  math_1 PrimFloat.sqrt false x.

Definition cos (L : libm) (x : number) : result float :=
  math_1 (c_cos L) false x.

Definition sin (L : libm) (x : number) : result float :=
  math_1 (c_sin L) false x.

Definition sinh (L : libm) (x : number) : result float :=
  math_1 (c_sinh L) true x.

(** [math.log] of a float. *)
Definition log (L : libm) (x : float) : result float :=
  math_1 (m_log L) false (Float x).

Definition atan2 (L : libm) (y x : number) : result float :=
  math_2 (m_atan2 L) y x.

End math.

(** ** The objects of the module *)

Inductive variant : Type :=
| cPxPyPzE
| cPxPyPzM
| cPtEtaPhiE
| cPtEtaPhiM.

(** An instance: its class and the eight private attributes.  The four
    canonical ones hold the numbers that were passed in, ints included; the
    derived ones are floats. *)
Record instance : Type := mkInstance {
  __class__ : variant;
  _px : number;
  _py : number;
  _pz : number;
  _E : number;
  _pt : float;
  _eta : float;
  _phi : float;
  _M : float
}.

(** The right operands of [+] and [-].  [ObjOther radd rsub] is an object of
    a class from outside the module, which is no [FourVector]: [radd] and
    [rsub] are its methods [__radd__] and [__rsub__] as they act on a
    four-vector, where its class defines them. *)
#[warnings="-register-all"]
Inductive object : Type :=
| ObjFourVector (v : instance)
| ObjNumber (x : number)
| ObjStr (s : string)
| ObjNone
| NotImplemented
| ObjOther (radd rsub : option (instance -> result object)).

(** [isinstance(o, FourVector)]. *)
Definition isinstance_FourVector (o : object) : bool :=
  match o with
  | ObjFourVector _ => true
  | _ => false
  end.

(** ** The sums of squares that the module writes out *)

(** [px**2 + py**2]. *)
Definition sq_sum2 (L : libm) (px py : number) : result number :=
  x2 <- pow2 L px ;;
  y2 <- pow2 L py ;;
  number_add x2 y2.

(** [px**2 + py**2 + pz**2]. *)
Definition sq_sum3 (L : libm) (px py pz : number) : result number :=
  s <- sq_sum2 L px py ;;
  z2 <- pow2 L pz ;;
  number_add s z2.

(** [px**2 + py**2 + pz**2 + M**2]. *)
Definition sq_sum4 (L : libm) (px py pz M : number) : result number :=
  s <- sq_sum3 L px py pz ;;
  m2 <- pow2 L M ;;
  number_add s m2.

(** ** class FourVector *)

Module FourVector.

Record derived : Type := mkDerived {
  d_pt : float;
  d_phi : float;
  d_eta : float;
  d_M : float
}.

Definition _calculate_derived_quantities (L : libm) (px py pz E : number)
  : result derived :=
  s <- sq_sum2 L px py ;;
  pt <- math.sqrt s ;;
  phi <- math.atan2 L py px ;;
  s <- sq_sum3 L px py pz ;;
  p <- math.sqrt s ;;
  eta <- (if ne (Float p) (abs pz) then
            n <- float_add p pz ;;
            d <- float_sub p pz ;;
            q <- float_div n d ;;
            l <- math.log L q ;;
            Ok (0.5 * l)
          else
            Ok (if ge pz (Int 0) then infinity else - infinity)) ;;
  e2 <- pow2 L E ;;
  p2 <- float_pow2 L p ;;
  d <- number_sub e2 (Float p2) ;;
  M <- math.sqrt (max d (Int 0)) ;;
  Ok (mkDerived pt phi eta M).

Definition __init__ (L : libm) (c : variant) (px py pz E : number)
  : result instance :=
  d <- _calculate_derived_quantities L px py pz E ;;
  Ok (mkInstance c px py pz E (d_pt d) (d_eta d) (d_phi d) (d_M d)).

(** The read-only properties. *)
Definition px (self : instance) : number := _px self.
Definition py (self : instance) : number := _py self.
Definition pz (self : instance) : number := _pz self.
Definition E (self : instance) : number := _E self.
Definition pt (self : instance) : float := _pt self.
Definition eta (self : instance) : float := _eta self.
Definition phi (self : instance) : float := _phi self.
Definition M (self : instance) : float := _M self.

End FourVector.

(** ** The four concrete classes *)

Module PxPyPzEFourVector.

Definition __init__ (L : libm) (px py pz E : number) : result instance :=
  FourVector.__init__ L cPxPyPzE px py pz E.

End PxPyPzEFourVector.

Module PxPyPzMFourVector.

Definition __init__ (L : libm) (px py pz M : number) : result instance :=
  s <- sq_sum4 L px py pz M ;;
  E <- math.sqrt s ;;
  FourVector.__init__ L cPxPyPzM px py pz (Float E).

End PxPyPzMFourVector.

Module PtEtaPhiEFourVector.

Definition __init__ (L : libm) (pt eta phi E : number) : result instance :=
  c <- math.cos L phi ;;
  px <- number_mul pt (Float c) ;;
  s <- math.sin L phi ;;
  py <- number_mul pt (Float s) ;;
  h <- math.sinh L eta ;;
  pz <- number_mul pt (Float h) ;;
  FourVector.__init__ L cPtEtaPhiE px py pz E.

End PtEtaPhiEFourVector.

Module PtEtaPhiMFourVector.

Definition __init__ (L : libm) (pt eta phi M : number) : result instance :=
  c <- math.cos L phi ;;
  px <- number_mul pt (Float c) ;;
  s <- math.sin L phi ;;
  py <- number_mul pt (Float s) ;;
  h <- math.sinh L eta ;;
  pz <- number_mul pt (Float h) ;;
  s <- sq_sum4 L px py pz M ;;
  E <- math.sqrt s ;;
  FourVector.__init__ L cPtEtaPhiM px py pz (Float E).

End PtEtaPhiMFourVector.

(** ** The operators of class FourVector *)

Definition __add__ (L : libm) (self : instance) (other : object)
  : result object :=
  match other with
  | ObjFourVector o =>
      px <- number_add (FourVector.px self) (FourVector.px o) ;;
      py <- number_add (FourVector.py self) (FourVector.py o) ;;
      pz <- number_add (FourVector.pz self) (FourVector.pz o) ;;
      E <- number_add (FourVector.E self) (FourVector.E o) ;;
      v <- PxPyPzEFourVector.__init__ L px py pz E ;;
      Ok (ObjFourVector v)
  | _ => Ok NotImplemented
  end.

Definition __sub__ (L : libm) (self : instance) (other : object)
  : result object :=
  match other with
  | ObjFourVector o =>
      px <- number_sub (FourVector.px self) (FourVector.px o) ;;
      py <- number_sub (FourVector.py self) (FourVector.py o) ;;
      pz <- number_sub (FourVector.pz self) (FourVector.pz o) ;;
      E <- number_sub (FourVector.E self) (FourVector.E o) ;;
      v <- PxPyPzEFourVector.__init__ L px py pz E ;;
      Ok (ObjFourVector v)
  | _ => Ok NotImplemented
  end.

Inductive operator : Type :=
| op_add
| op_sub.

(** The reflected method that the right operand's class offers for the
    operator.  Those of [int] and [float] answer [NotImplemented] to a
    four-vector; [str], [None] and [NotImplemented] have none. *)
Definition reflected_method (op : operator) (x : object)
  : option (instance -> result object) :=
  match x with
  | ObjOther radd rsub =>
      match op with
      | op_add => radd
      | op_sub => rsub
      end
  | ObjNumber _ => Some (fun _ => Ok NotImplemented)
  | _ => None
  end.

(** [a + x] and [a - x] as the interpreter evaluates them for a four-vector
    [a]: the method of [a] first; when it answers [NotImplemented], the
    reflected method of [x]; when there is none, or it answers
    [NotImplemented] too, [TypeError] (unsupported operand types). *)
Definition binary_op (m : instance -> object -> result object)
    (op : operator) (a : instance) (x : object) : result object :=
  r <- m a x ;;
  match r with
  | NotImplemented =>
      match reflected_method op x with
      | Some f =>
          r' <- f a ;;
          match r' with
          | NotImplemented => Raise TypeError
          | v => Ok v
          end
      | None => Raise TypeError
      end
  | v => Ok v
  end.

Definition add (L : libm) (a : instance) (x : object) : result object :=
  binary_op (__add__ L) op_add a x.

Definition subtract (L : libm) (a : instance) (x : object) : result object :=
  binary_op (__sub__ L) op_sub a x.

(** ** Notions used in the statements *)

(** [E = sqrt(px^2 + py^2 + pz^2 + M^2)], as Python evaluates
    [math.sqrt(px**2 + py**2 + pz**2 + M**2)]. *)
Definition energy (L : libm) (px py pz M : number) : result float :=
  s <- sq_sum4 L px py pz M ;;
  math.sqrt s.

(** [px = pt*cos(phi)], [py = pt*sin(phi)], [pz = pt*sinh(eta)], as Python
    evaluates the three products in this order. *)
Definition cartesian (L : libm) (pt eta phi : number)
  : result (number * number * number) :=
  c <- math.cos L phi ;;
  px <- number_mul pt (Float c) ;;
  s <- math.sin L phi ;;
  py <- number_mul pt (Float s) ;;
  h <- math.sinh L eta ;;
  pz <- number_mul pt (Float h) ;;
  Ok (px, py, pz).

(** The magnitude [p] of the momentum, as Python evaluates
    [math.sqrt(px**2 + py**2 + pz**2)]. *)
Definition magnitude (L : libm) (px py pz : number) : result float :=
  s <- sq_sum3 L px py pz ;;
  math.sqrt s.

(** A number that is no nan, and one that is neither nan nor infinite. *)
Definition not_nan (x : number) : bool :=
  match x with
  | Int _ => true
  | Float f => negb (is_nan f)
  end.

Definition finite (x : number) : bool :=
  match x with
  | Int _ => true
  | Float f => is_finite f
  end.

(** A float in the closed interval from [-pi] to [pi]. *)
Definition within_pi (f : float) : bool :=
  (- pi <=? f) && (f <=? pi).

(** A float that is not below zero: at least zero, or nan. *)
Definition nonneg_or_nan (f : float) : bool :=
  is_nan f || (0 <=? f).

(** A C library whose [atan2] answers within [-pi, pi], or with a nan. *)
Definition atan2_within_pi (L : libm) : Prop :=
  forall y x : float,
    is_nan (c_atan2 L y x) || within_pi (c_atan2 L y x) = true.

(** The four canonical attributes of [a] are neither nan nor infinite. *)
Definition all_finite (a : instance) : bool :=
  finite (_px a) && finite (_py a) && finite (_pz a) && finite (_E a).

(** The operand's class has no reflected method for the operator, or the
    method answers [NotImplemented] to the four-vector [a]. *)
Definition declines (op : operator) (x : object) (a : instance) : Prop :=
  match reflected_method op x with
  | None => True
  | Some f => f a = Ok NotImplemented
  end.

(** The instances a program can hold: built by one of the four classes, or
    returned by an operator on such instances. *)
Inductive constructed (L : libm) : instance -> Prop :=
| built_PxPyPzE px py pz E v :
    PxPyPzEFourVector.__init__ L px py pz E = Ok v -> constructed L v
| built_PxPyPzM px py pz M v :
    PxPyPzMFourVector.__init__ L px py pz M = Ok v -> constructed L v
| built_PtEtaPhiE pt eta phi E v :
    PtEtaPhiEFourVector.__init__ L pt eta phi E = Ok v -> constructed L v
| built_PtEtaPhiM pt eta phi M v :
    PtEtaPhiMFourVector.__init__ L pt eta phi M = Ok v -> constructed L v
| built_add a b v :
    constructed L a -> constructed L b ->
    add L a (ObjFourVector b) = Ok (ObjFourVector v) -> constructed L v
| built_sub a b v :
    constructed L a -> constructed L b ->
    subtract L a (ObjFourVector b) = Ok (ObjFourVector v) -> constructed L v.

End IEEE.

(** * Properties, Part I *)

(** ** The library functions inside their domain *)

Lemma math_sqrt_ok (x : R) : 0 <= x -> math.sqrt x = Ok (sqrt x).
Proof.
  intros Hx. unfold math.sqrt.
  destruct (Rlt_dec x 0) as [Hneg | _]; [lra | reflexivity].
Qed.

Lemma math_log_ok (x : R) : 0 < x -> math.log x = Ok (ln x).
Proof.
  intros Hx. unfold math.log.
  destruct (Rle_dec x 0) as [Hle | _]; [lra | reflexivity].
Qed.

Lemma truediv_ok (x y : R) : y <> 0 -> truediv x y = Ok (x / y).
Proof.
  intros Hy. unfold truediv.
  destruct (Req_dec_T y 0) as [Hz | _]; [contradiction | reflexivity].
Qed.

Lemma max_ge_right (a b : R) : b <= max a b.
Proof. unfold max. destruct (Rgt_dec b a); lra. Qed.

Lemma sq2_nonneg (x y : R) : 0 <= x ^ 2 + y ^ 2.
Proof. nra. Qed.

Lemma sq3_nonneg (x y z : R) : 0 <= x ^ 2 + y ^ 2 + z ^ 2.
Proof. nra. Qed.

Lemma sq4_nonneg (x y z m : R) : 0 <= x ^ 2 + y ^ 2 + z ^ 2 + m ^ 2.
Proof. nra. Qed.

Create HintDb fourvec.

#[local] Hint Resolve sq2_nonneg sq3_nonneg sq4_nonneg max_ge_right : fourvec.

(** The magnitude of the three-momentum dominates [|pz|]. *)
Lemma magnitude_ge_abs_pz (px py pz : R) :
  Rabs pz <= sqrt (px ^ 2 + py ^ 2 + pz ^ 2).
Proof.
  rewrite <- sqrt_Rsqr_abs.
  apply sqrt_le_1_alt. unfold Rsqr. nra.
Qed.

(** ** [_calculate_derived_quantities] returns, and what it returns *)

(** Off the axis the quotient under the logarithm is defined and positive. *)
Lemma quotient_positive (px py pz : R) :
  let p := sqrt (px ^ 2 + py ^ 2 + pz ^ 2) in
  p <> Rabs pz -> p - pz <> 0 /\ 0 < (p + pz) / (p - pz).
Proof.
  intros p Hne.
  pose proof (magnitude_ge_abs_pz px py pz) as Hge. fold p in Hge.
  assert (Hgt : Rabs pz < p) by lra.
  assert (Hlo : 0 < p - pz) by (pose proof (Rle_abs pz); lra).
  assert (Hhi : 0 < p + pz).
  { pose proof (Rle_abs (- pz)) as H. rewrite Rabs_Ropp in H. lra. }
  split; [lra | apply Rdiv_lt_0_compat; assumption].
Qed.

Lemma calculate_derived_ok (px py pz E : R) :
  FourVector._calculate_derived_quantities px py pz E =
  Ok (FourVector.mkDerived
        (sqrt (px ^ 2 + py ^ 2))
        (math.atan2 py px)
        (eta_value (sqrt (px ^ 2 + py ^ 2 + pz ^ 2)) pz)
        (M_value px py pz E)).
Proof.
  unfold FourVector._calculate_derived_quantities.
  rewrite math_sqrt_ok by auto with fourvec. cbn [bind].
  rewrite math_sqrt_ok by auto with fourvec. cbn [bind].
  unfold eta_value.
  destruct (ne _ (abs pz)) as [Hne | Heq].
  - destruct (quotient_positive px py pz Hne) as [Hden Hq].
    rewrite truediv_ok by assumption. cbn [bind].
    rewrite math_log_ok by assumption. cbn [bind].
    rewrite math_sqrt_ok by auto with fourvec. reflexivity.
  - cbn [bind neg].
    rewrite math_sqrt_ok by auto with fourvec. reflexivity.
Qed.

(** The base initialiser never raises. *)
Lemma init_ok (c : variant) (px py pz E : R) :
  FourVector.__init__ c px py pz E =
  Ok (mkInstance c px py pz E
        (sqrt (px ^ 2 + py ^ 2))
        (eta_value (sqrt (px ^ 2 + py ^ 2 + pz ^ 2)) pz)
        (math.atan2 py px)
        (M_value px py pz E)).
Proof.
  unfold FourVector.__init__. rewrite calculate_derived_ok. reflexivity.
Qed.

Lemma PxPyPzE_ok (px py pz E : R) :
  PxPyPzEFourVector.__init__ px py pz E =
  Ok (mkInstance cPxPyPzE px py pz E
        (sqrt (px ^ 2 + py ^ 2))
        (eta_value (sqrt (px ^ 2 + py ^ 2 + pz ^ 2)) pz)
        (math.atan2 py px)
        (M_value px py pz E)).
Proof. apply init_ok. Qed.

Lemma PxPyPzM_ok (px py pz M : R) :
  PxPyPzMFourVector.__init__ px py pz M =
  FourVector.__init__ cPxPyPzM px py pz
    (sqrt (px ^ 2 + py ^ 2 + pz ^ 2 + M ^ 2)).
Proof.
  unfold PxPyPzMFourVector.__init__.
  rewrite math_sqrt_ok by auto with fourvec. reflexivity.
Qed.

Lemma PtEtaPhiE_ok (pt eta phi E : R) :
  PtEtaPhiEFourVector.__init__ pt eta phi E =
  FourVector.__init__ cPtEtaPhiE
    (pt * cos phi) (pt * sin phi) (pt * sinh eta) E.
Proof. reflexivity. Qed.

Lemma PtEtaPhiM_ok (pt eta phi M : R) :
  PtEtaPhiMFourVector.__init__ pt eta phi M =
  FourVector.__init__ cPtEtaPhiM
    (pt * cos phi) (pt * sin phi) (pt * sinh eta)
    (sqrt ((pt * cos phi) ^ 2 + (pt * sin phi) ^ 2 + (pt * sinh eta) ^ 2
           + M ^ 2)).
Proof.
  unfold PtEtaPhiMFourVector.__init__. cbv zeta.
  rewrite math_sqrt_ok by auto with fourvec. reflexivity.
Qed.

(** "The constructor returns some [v], and [v] has the property": exhibit the
    instance that the constructor builds and leave the property. *)
Ltac by_construction :=
  eexists; split;
  [ first [ apply PxPyPzE_ok
          | rewrite PxPyPzM_ok; apply init_ok
          | rewrite PtEtaPhiE_ok; apply init_ok
          | rewrite PtEtaPhiM_ok; apply init_ok ]
  | ].

(** The operators on two four-vectors return, with a [PxPyPzEFourVector]. *)
Lemma add_ok (a b : instance) :
  add a (ObjFourVector b) =
  r <- PxPyPzEFourVector.__init__
         (_px a + _px b) (_py a + _py b) (_pz a + _pz b) (_E a + _E b) ;;
  Ok (ObjFourVector r).
Proof.
  unfold add, binary_op, __add__.
  unfold FourVector.px, FourVector.py, FourVector.pz, FourVector.E.
  rewrite PxPyPzE_ok. reflexivity.
Qed.

Lemma subtract_ok (a b : instance) :
  subtract a (ObjFourVector b) =
  r <- PxPyPzEFourVector.__init__
         (_px a - _px b) (_py a - _py b) (_pz a - _pz b) (_E a - _E b) ;;
  Ok (ObjFourVector r).
Proof.
  unfold subtract, binary_op, __sub__.
  unfold FourVector.px, FourVector.py, FourVector.pz, FourVector.E.
  rewrite PxPyPzE_ok. reflexivity.
Qed.

(** ** The branch of [eta] *)

Lemma eta_value_off_axis (p pz : R) :
  p <> Rabs pz -> eta_value p pz = Fin (0.5 * ln ((p + pz) / (p - pz))).
Proof.
  intros Hp. unfold eta_value, abs.
  destruct (ne p (Rabs pz)) as [_ | Heq]; [reflexivity | contradiction].
Qed.

(** ** The claims over the real numbers *)

(** C2.  [PxPyPzEFourVector(1, 2, 3, 4)] returns an instance with
    [pt = sqrt(5)], [phi = atan2(2, 1)],
    [eta = 0.5 * ln((sqrt(14) + 3) / (sqrt(14) - 3))] and
    [M = sqrt(max(16 - 14, 0)) = sqrt(2)]. *)
Theorem scenario_1_2_3_4 :
  exists v,
    PxPyPzEFourVector.__init__ 1 2 3 4 = Ok v /\
    FourVector.pt v = sqrt 5 /\
    FourVector.phi v = math.atan2 2 1 /\
    FourVector.eta v = Fin (0.5 * ln ((sqrt 14 + 3) / (sqrt 14 - 3))) /\
    FourVector.M v = sqrt (max (16 - 14) 0) /\
    FourVector.M v = sqrt 2.
Proof.
  by_construction.
  unfold FourVector.pt, FourVector.phi, FourVector.eta, FourVector.M.
  cbn [_pt _phi _eta _M].
  assert (H5 : 1 ^ 2 + 2 ^ 2 = 5) by ring.
  assert (H14 : 1 ^ 2 + 2 ^ 2 + 3 ^ 2 = 14) by ring.
  assert (Hsq : sqrt 14 ^ 2 = 14) by (apply pow2_sqrt; lra).
  assert (Hne : sqrt 14 <> Rabs 3).
  { rewrite Rabs_pos_eq by lra. intros Heq. rewrite Heq in Hsq. lra. }
  assert (Hmax : max (16 - 14) 0 = 2).
  { unfold max. destruct (Rgt_dec 0 (16 - 14)); lra. }
  unfold M_value. rewrite H14, H5, Hsq, (eta_value_off_axis _ _ Hne).
  replace (4 ^ 2 - 14) with (16 - 14) by ring.
  rewrite Hmax. repeat split; reflexivity.
Qed.

(** ** The decimals of the scenario

    Bounds on [exp] by repeated squaring, from [1 + x <= exp x]. *)

Lemma exp_square_lower (a b x : R) :
  0 <= a -> a <= exp x -> b <= a * a -> b <= exp (2 * x).
Proof.
  intros Ha Hle Hb. replace (2 * x) with (x + x) by ring.
  rewrite exp_plus. nra.
Qed.

Lemma exp_square_upper (a b x : R) :
  exp x <= a -> a * a <= b -> exp (2 * x) <= b.
Proof.
  intros Hle Hb. replace (2 * x) with (x + x) by ring.
  rewrite exp_plus. pose proof (exp_pos x). nra.
Qed.

Lemma exp_below_inverse (x : R) : x < 1 -> exp x <= / (1 - x).
Proof.
  intros Hx. pose proof (exp_ineq1_le (- x)) as H.
  rewrite exp_Ropp in H.
  rewrite <- (Rinv_inv (exp x)).
  apply Rinv_le_contravar; lra.
Qed.

Lemma exp_2_22_lower : 9.0905 < exp 2.22.
Proof.
  assert (H : 1.008671875 <= exp (2.22 / 256)).
  { pose proof (exp_ineq1_le (2.22 / 256)). lra. }
  apply (exp_square_lower _ 1.01741895) in H; [| lra | lra].
  apply (exp_square_lower _ 1.03514131) in H; [| lra | lra].
  apply (exp_square_lower _ 1.07151753) in H; [| lra | lra].
  apply (exp_square_lower _ 1.14814981) in H; [| lra | lra].
  apply (exp_square_lower _ 1.31824798) in H; [| lra | lra].
  apply (exp_square_lower _ 1.73777773) in H; [| lra | lra].
  apply (exp_square_lower _ 3.01987143) in H; [| lra | lra].
  apply (exp_square_lower _ 9.11962345) in H; [| lra | lra].
  replace (2 * (2 * (2 * (2 * (2 * (2 * (2 * (2 * (2.22 / 256)))))))))
    with 2.22 in H by field.
  lra.
Qed.

Lemma exp_2_2_upper : exp 2.2 < 9.0899.
Proof.
  assert (H : exp (2.2 / 1024) <= 1.00215307).
  { pose proof (exp_below_inverse (2.2 / 1024)) as H.
    assert (Hinv : / (1 - 2.2 / 1024) <= 1.00215307).
    { apply (Rmult_le_reg_r (1 - 2.2 / 1024)); [lra |].
      rewrite Rinv_l by lra. lra. }
    lra. }
  apply (exp_square_upper _ 1.00431078) in H; [| lra].
  apply (exp_square_upper _ 1.00864015) in H; [| lra].
  apply (exp_square_upper _ 1.01735496) in H; [| lra].
  apply (exp_square_upper _ 1.03501112) in H; [| lra].
  apply (exp_square_upper _ 1.07124802) in H; [| lra].
  apply (exp_square_upper _ 1.14757233) in H; [| lra].
  apply (exp_square_upper _ 1.31692226) in H; [| lra].
  apply (exp_square_upper _ 1.73428424) in H; [| lra].
  apply (exp_square_upper _ 3.00774183) in H; [| lra].
  apply (exp_square_upper _ 9.04651092) in H; [| lra].
  replace (2 * (2 * (2 * (2 * (2 * (2 * (2 * (2 * (2 * (2 * (2.2 / 1024)))))))))))
    with 2.2 in H by field.
  lra.
Qed.

Lemma sqrt_14_bounds : 3.74165 < sqrt 14 < 3.74166.
Proof.
  split.
  - rewrite <- (sqrt_square 3.74165) by lra. apply sqrt_lt_1_alt. lra.
  - rewrite <- (sqrt_square 3.74166) by lra. apply sqrt_lt_1_alt. lra.
Qed.

(** The value of [eta] in the scenario of C2 lies between 1.10 and 1.11. *)
Lemma scenario_eta_bounds :
  1.10 < 0.5 * ln ((sqrt 14 + 3) / (sqrt 14 - 3)) < 1.11.
Proof.
  pose proof sqrt_14_bounds as [Hlo Hhi].
  set (q := (sqrt 14 + 3) / (sqrt 14 - 3)).
  assert (Hq : 9.0899 < q < 9.0905).
  { assert (Heq : q * (sqrt 14 - 3) = sqrt 14 + 3).
    { unfold q. field. lra. }
    split.
    - apply (Rmult_lt_reg_r (sqrt 14 - 3)); [lra |]. rewrite Heq. lra.
    - apply (Rmult_lt_reg_r (sqrt 14 - 3)); [lra |]. rewrite Heq. lra. }
  destruct Hq as [Hqlo Hqhi].
  assert (Hup : ln q < 2.22).
  { rewrite <- (ln_exp 2.22). apply ln_increasing; [lra |].
    pose proof exp_2_22_lower. lra. }
  assert (Hdown : 2.2 < ln q).
  { rewrite <- (ln_exp 2.2). apply ln_increasing; [apply exp_pos |].
    pose proof exp_2_2_upper. lra. }
  lra.
Qed.

Lemma scenario_pt_M_bounds :
  2.236 < sqrt 5 < 2.237 /\ 1.4142 < sqrt 2 < 1.4143.
Proof.
  repeat split.
  - rewrite <- (sqrt_square 2.236) by lra. apply sqrt_lt_1_alt. lra.
  - rewrite <- (sqrt_square 2.237) by lra. apply sqrt_lt_1_alt. lra.
  - rewrite <- (sqrt_square 1.4142) by lra. apply sqrt_lt_1_alt. lra.
  - rewrite <- (sqrt_square 1.4143) by lra. apply sqrt_lt_1_alt. lra.
Qed.

(** Each class's own [set_vector] raises and leaves the instance as it was. *)
Lemma set_vector_of_each_class (self : instance) (a b c d : object) :
  PxPyPzEFourVector.set_vector self a b c d
    = (Raise (AttributeError immutable_msg), self) /\
  PxPyPzMFourVector.set_vector self a b c d
    = (Raise (AttributeError immutable_msg), self) /\
  PtEtaPhiEFourVector.set_vector self a b c d
    = (Raise (AttributeError immutable_msg), self) /\
  PtEtaPhiMFourVector.set_vector self a b c d
    = (Raise (AttributeError immutable_msg), self).
Proof. repeat split. Qed.

(** C8.  For every instance of every one of the four classes and for all
    arguments (the instance's own current values among them), [set_vector]
    raises the immutability error, and the instance after the call has every
    attribute as before. *)
Theorem set_vector_always_fails (self : instance) (a b c d : object) :
  set_vector self a b c d = (Raise (AttributeError immutable_msg), self) /\
  set_vector self
    (ObjFloat (Fin (FourVector.px self))) (ObjFloat (Fin (FourVector.py self)))
    (ObjFloat (Fin (FourVector.pz self))) (ObjFloat (Fin (FourVector.E self)))
  = (Raise (AttributeError immutable_msg), self).
Proof.
  unfold set_vector.
  destruct (__class__ self); split;
    apply (set_vector_of_each_class self).
Qed.

(** X16.  [a + x] and [a - x] raise [TypeError] exactly when [x] is not a
    four-vector. *)
Theorem type_error_iff_foreign (a : instance) (x : object) :
  (add a x = Raise TypeError <-> isinstance_FourVector x = false) /\
  (subtract a x = Raise TypeError <-> isinstance_FourVector x = false).
Proof.
  destruct x as [b | | | | |]; cbn.
  - rewrite add_ok, subtract_ok, !PxPyPzE_ok. cbn.
    split; split; discriminate.
  - split; split; reflexivity.
  - split; split; reflexivity.
  - split; split; reflexivity.
  - split; split; reflexivity.
  - split; split; reflexivity.
Qed.

(** * Properties, Part II *)

Import PrimFloat SpecFloat FloatOps FloatAxioms FloatLemmas.
Import IEEE.
Local Open Scope Z_scope.
Local Open Scope float_scope.
Local Open Scope bool_scope.
Local Open Scope ieee_scope.

(** ** Binary64: facts from the specification of the float operations *)



Lemma SFcompare_refl (x : spec_float) :
  x <> S754_nan -> SFcompare x x = Some Eq.
Proof.
  destruct x as [s | s | | s m e]; intros H; try reflexivity.
  - destruct s; reflexivity.
  - contradiction.
  - cbn. rewrite Z.compare_refl.
    assert (Hm : Pos.compare_cont Eq m m = Eq) by apply Pos.compare_refl.
    rewrite Hm. destruct s; reflexivity.
Qed.

Lemma is_nan_spec (f : float) : is_nan f = true <-> Prim2SF f = S754_nan.
Proof.
  unfold is_nan. rewrite eqb_spec. unfold SFeqb.
  destruct (Prim2SF f) as [s | s | | s m e] eqn:E.
  - cbn. split; discriminate.
  - rewrite SFcompare_refl by discriminate. cbn. split; discriminate.
  - cbn. split; reflexivity.
  - rewrite SFcompare_refl by discriminate. cbn. split; discriminate.
Qed.

Lemma not_nan_spec (f : float) : Prim2SF f <> S754_nan -> is_nan f = false.
Proof.
  intros H. destruct (is_nan f) eqn:E; [| reflexivity].
  apply is_nan_spec in E. contradiction.
Qed.

Lemma Prim2SF_infinity : Prim2SF infinity = S754_infinity false.
Proof. reflexivity. Qed.

Lemma Prim2SF_zero : Prim2SF 0 = S754_zero false.
Proof. reflexivity. Qed.

Lemma is_infinity_spec (f : float) :
  is_infinity f = true <-> exists s, Prim2SF f = S754_infinity s.
Proof.
  unfold is_infinity. rewrite eqb_spec, abs_spec, Prim2SF_infinity.
  destruct (Prim2SF f) as [s | s | | s m e]; cbn.
  - split; [discriminate | intros [s' H]; discriminate].
  - split; [intros _; eexists; reflexivity | reflexivity].
  - split; [discriminate | intros [s' H]; discriminate].
  - split; [discriminate | intros [s' H]; discriminate].
Qed.

Lemma is_finite_spec (f : float) :
  is_finite f = true ->
  (exists s, Prim2SF f = S754_zero s) \/
  (exists s m e, Prim2SF f = S754_finite s m e).
Proof.
  unfold is_finite. intros H.
  apply negb_true_iff, orb_false_iff in H. destruct H as [Hn Hi].
  destruct (Prim2SF f) as [s | s | | s m e] eqn:E.
  - left. eexists. reflexivity.
  - assert (is_infinity f = true) by (apply is_infinity_spec; eexists; exact E).
    congruence.
  - assert (is_nan f = true) by (apply is_nan_spec; exact E). congruence.
  - right. do 3 eexists. reflexivity.
Qed.

(** A finite float minus itself is [+0.0]. *)
Lemma float_sub_diag (f : float) : is_finite f = true -> f - f = 0.
Proof.
  intros H. apply Prim2SF_inj. rewrite sub_spec, Prim2SF_zero.
  destruct (is_finite_spec f H) as [[s E] | (s & m & e & E)]; rewrite E.
  - destruct s; reflexivity.
  - unfold SF64sub, SFsub. cbv zeta. rewrite Z.sub_diag. reflexivity.
Qed.

Lemma binary_round_aux_cases (s : bool) (m e : Z) (l : location) :
  let r := binary_round_aux prec emax s m e l in
  r = S754_zero s \/ (exists m' e', r = S754_finite s m' e') \/
  r = S754_infinity s \/ r = S754_nan.
Proof.
  cbv zeta. unfold binary_round_aux.
  destruct (shr_fexp prec emax m e l) as [mrs' e'].
  destruct (shr_fexp prec emax _ e' loc_Exact) as [mrs'' e''].
  destruct (shr_m mrs'') as [| p | p].
  - left. reflexivity.
  - destruct (Z.leb e'' (emax - prec)).
    + right. left. do 2 eexists. reflexivity.
    + right. right. left. reflexivity.
  - right. right. right. reflexivity.
Qed.

(** [sqrt] never returns a negative float. *)
Lemma sqrt_sign (f : float) : nonneg_or_nan (sqrt f) = true.
Proof.
  unfold nonneg_or_nan. apply orb_true_iff.
  rewrite is_nan_spec, leb_spec, sqrt_spec, Prim2SF_zero.
  unfold SF64sqrt, SFsqrt.
  destruct (Prim2SF f) as [s | s | | s m e].
  - right. reflexivity.
  - destruct s; [left | right]; reflexivity.
  - left. reflexivity.
  - destruct s; [left; reflexivity |].
    destruct (SFsqrt_core_binary prec emax (Z.pos m) e) as [[mz ez] lz].
    destruct (binary_round_aux_cases false mz ez lz)
      as [H | [(m' & e' & H) | [H | H]]];
      rewrite H; [right | right | right | left]; reflexivity.
Qed.

(** The floats that compare equal to zero are [+0.0] and [-0.0]. *)
Lemma eqb_zero_cases (f : float) : (f =? 0) = true -> f = 0 \/ f = (-0).
Proof.
  rewrite eqb_spec, Prim2SF_zero. intros H.
  assert (E : exists s, Prim2SF f = S754_zero s).
  { destruct (Prim2SF f) as [s | s | | s m e].
    - eexists. reflexivity.
    - destruct s; discriminate.
    - discriminate.
    - destruct s; discriminate. }
  destruct E as [s E]. rewrite <- (SF2Prim_Prim2SF f), E.
  destruct s; [right | left]; reflexivity.
Qed.

(** *** The conversion of an int never gives a nan *)

Lemma shr_1_nonneg (mrs : shr_record) :
  (0 <= shr_m mrs)%Z -> (0 <= shr_m (shr_1 mrs))%Z.
Proof.
  destruct mrs as [m r s]. cbn [shr_m].
  destruct m as [| p | p]; intros H.
  - cbn. lia.
  - destruct p; cbn; lia.
  - lia.
Qed.

Lemma iter_shr_1_nonneg (p : positive) (mrs : shr_record) :
  (0 <= shr_m mrs)%Z -> (0 <= shr_m (iter_pos shr_1 p mrs))%Z.
Proof.
  revert mrs. induction p as [p IH | p IH |]; intros mrs H; cbn.
  - apply IH, IH, shr_1_nonneg, H.
  - apply IH, IH, H.
  - apply shr_1_nonneg, H.
Qed.

Lemma shr_fexp_nonneg (m e : Z) (l : location) :
  (0 <= m)%Z -> (0 <= shr_m (fst (shr_fexp prec emax m e l)))%Z.
Proof.
  intros H. unfold shr_fexp, shr.
  assert (H0 : (0 <= shr_m (shr_record_of_loc m l))%Z).
  { destruct l as [| []]; exact H. }
  destruct (_ - e)%Z as [| p | p]; cbn [fst]; try exact H0.
  apply iter_shr_1_nonneg, H0.
Qed.

Lemma round_nearest_even_nonneg (m : Z) (l : location) :
  (0 <= m)%Z -> (0 <= round_nearest_even m l)%Z.
Proof.
  intros H. unfold round_nearest_even.
  destruct l as [| []]; try destruct (Z.even m); lia.
Qed.

Lemma binary_round_aux_not_nan (s : bool) (m e : Z) (l : location) :
  (0 <= m)%Z -> binary_round_aux prec emax s m e l <> S754_nan.
Proof.
  intros H. unfold binary_round_aux.
  pose proof (shr_fexp_nonneg m e l H) as H1.
  destruct (shr_fexp prec emax m e l) as [mrs' e']. cbn [fst] in H1.
  pose proof (shr_fexp_nonneg _ e' loc_Exact
                (round_nearest_even_nonneg _ (loc_of_shr_record mrs') H1))
    as H2.
  destruct (shr_fexp prec emax _ e' loc_Exact) as [mrs'' e'']. cbn [fst] in H2.
  destruct (shr_m mrs'') as [| p | p].
  - discriminate.
  - destruct (Z.leb e'' (emax - prec)); discriminate.
  - lia.
Qed.

Lemma binary_round_not_nan (s : bool) (m : positive) (e : Z) :
  binary_round prec emax s m e <> S754_nan.
Proof.
  unfold binary_round.
  destruct (shl_align m e _) as [mz ez].
  apply binary_round_aux_not_nan. lia.
Qed.

Lemma binary_normalize_not_nan (n e : Z) (sz : bool) :
  binary_normalize prec emax n e sz <> S754_nan.
Proof.
  unfold binary_normalize.
  destruct n; [discriminate | apply binary_round_not_nan ..].
Qed.

Lemma SF2Prim_not_nan (sf : spec_float) :
  sf <> S754_nan -> is_nan (SF2Prim sf) = false.
Proof.
  intros H. destruct sf as [s | s | | s m e].
  - destruct s; reflexivity.
  - destruct s; reflexivity.
  - contradiction.
  - apply not_nan_spec. unfold SF2Prim.
    assert (Hl : Prim2SF (Z.ldexp (of_uint63 (Uint63.of_Z (Z.pos m))) e)
                 <> S754_nan).
    { rewrite Z_ldexp_spec, of_uint63_spec. unfold SFldexp.
      pose proof (binary_normalize_not_nan
                    (Uint63.to_Z (Uint63.of_Z (Z.pos m))) 0 false) as Hn.
      destruct (binary_normalize _ _ _ _ _) as [s' | s' | | s' m' e'];
        try discriminate; [contradiction |].
      apply binary_round_not_nan. }
    destruct s; [| exact Hl].
    rewrite opp_spec.
    destruct (Prim2SF _) as [s' | s' | | s' m' e'];
      cbn; try discriminate. contradiction.
Qed.

Lemma float_of_int_not_nan (n : Z) (f : float) :
  float_of_int n = Ok f -> is_nan f = false.
Proof.
  unfold float_of_int.
  pose proof (binary_normalize_not_nan n 0 false) as Hn.
  destruct (binary_normalize prec emax n 0 false) as [s | s | | s m e];
    intros H; try discriminate; injection H as <-.
  - exact (SF2Prim_not_nan (S754_zero s) Hn).
  - contradiction.
  - exact (SF2Prim_not_nan (S754_finite s m e) Hn).
Qed.

Lemma as_double_not_nan (x : number) (f : float) :
  not_nan x = true -> as_double x = Ok f -> is_nan f = false.
Proof.
  destruct x as [n | g]; cbn; intros Hx H.
  - exact (float_of_int_not_nan n f H).
  - injection H as <-. apply negb_true_iff. exact Hx.
Qed.

(** ** The error monad *)

Lemma bind_Ok {A B : Type} (m : result A) (k : A -> result B) (b : B) :
  bind m k = Ok b -> exists a, m = Ok a /\ k a = Ok b.
Proof.
  destruct m as [a | e]; cbn; intros H; [| discriminate].
  exists a. split; [reflexivity | exact H].
Qed.

(** [bind_inv H as a Ha]: from [H : (a <- m ;; k) = Ok b], the value [a] with
    [Ha : m = Ok a], and [H : k a = Ok b]. *)
Tactic Notation "bind_inv" hyp(H) "as" ident(a) ident(Ha) :=
  apply bind_Ok in H; destruct H as (a & Ha & H); cbv beta zeta in H.

(** ** Numbers *)


Lemma number_sub_diag (x : number) :
  finite x = true ->
  number_sub x x = Ok (Int 0) \/ number_sub x x = Ok (Float 0).
Proof.
  destruct x as [n | f]; cbn; intros H.
  - left. rewrite Z.sub_diag. reflexivity.
  - right. rewrite (float_sub_diag f H). reflexivity.
Qed.

(** The numbers that compare equal to 0: the int 0 and the two float zeros. *)
Lemma eq_zero_cases (x : number) :
  eq x (Int 0) = true -> x = Int 0 \/ x = Float 0 \/ x = Float (-0).
Proof.
  unfold eq. destruct x as [n | f]; cbn [cmp].
  - destruct (Z.compare_spec n 0); try discriminate. subst. auto.
  - unfold compare_float_int. intros H.
    assert (E : exists s, Prim2SF f = S754_zero s).
    { destruct (Prim2SF f) as [s | s | | s m e].
      - eexists. reflexivity.
      - destruct s; discriminate.
      - discriminate.
      - exfalso. cbv zeta in H.
        destruct (Z.leb 0 e) eqn:He.
        + apply Z.leb_le in He.
          pose proof (Z.pow_pos_nonneg 2 e ltac:(lia) He) as Hp.
          destruct s.
          * destruct (Z.compare_spec (Z.neg m * 2 ^ e) 0);
              try discriminate. nia.
          * destruct (Z.compare_spec (Z.pos m * 2 ^ e) 0);
              try discriminate. nia.
        + destruct s; cbn in H; discriminate. }
    destruct E as [s E]. rewrite <- (SF2Prim_Prim2SF f), E.
    destruct s; auto.
Qed.

(** ** The [math] module *)

Lemma math_1_inv (func : float -> float) (b : bool) (x : number) (r : float) :
  math.math_1 func b x = Ok r ->
  exists f, as_double x = Ok f /\ r = func f.
Proof.
  unfold math.math_1. intros H. bind_inv H as f Hf.
  exists f. split; [exact Hf |].
  destruct (is_nan _ && _); [discriminate |].
  destruct (is_infinity _ && _); [discriminate |].
  injection H as <-. reflexivity.
Qed.

(** [math.sqrt] returns nothing below zero. *)
Lemma math_sqrt_sign (x : number) (r : float) :
  math.sqrt x = Ok r -> nonneg_or_nan r = true.
Proof.
  intros H. apply math_1_inv in H. destruct H as (f & _ & ->).
  apply sqrt_sign.
Qed.

Lemma m_atan2_range (L : libm) (y x : float) :
  atan2_within_pi L ->
  is_nan (math.m_atan2 L y x) || within_pi (math.m_atan2 L y x) = true.
Proof.
  intros HL. unfold math.m_atan2.
  destruct (is_nan x || is_nan y); [reflexivity |].
  destruct (is_infinity y).
  - destruct (is_infinity x).
    + destruct (copysign 1 x =? 1); unfold copysign;
        destruct (get_sign y); reflexivity.
    + unfold copysign; destruct (get_sign y); reflexivity.
  - destruct (is_infinity x || (y =? 0)).
    + destruct (copysign 1 x =? 1); unfold copysign;
        destruct (get_sign y); reflexivity.
    + apply HL.
Qed.

(** [math.atan2] of two numbers that are no nan returns a float from [-pi]
    to [pi], or raises. *)
Lemma math_atan2_range (L : libm) (y x : number) (r : float) :
  atan2_within_pi L -> not_nan y = true -> not_nan x = true ->
  math.atan2 L y x = Ok r -> within_pi r = true.
Proof.
  intros HL Hy Hx H. unfold math.atan2, math.math_2 in H.
  bind_inv H as fy Hfy. bind_inv H as fx Hfx.
  rewrite (as_double_not_nan y fy Hy Hfy) in H.
  rewrite (as_double_not_nan x fx Hx Hfx) in H.
  pose proof (m_atan2_range L fy fx HL) as Hr.
  destruct (is_nan (math.m_atan2 L fy fx)) eqn:En.
  - cbn in H. discriminate.
  - cbn in H, Hr.
    match type of H with
    | (if ?c then _ else _) = _ => destruct c; [discriminate |]
    end.
    injection H as <-. exact Hr.
Qed.

(** ** What the base initialiser stores *)

Lemma calculate_derived_inv (L : libm) (px py pz E : number)
    (d : FourVector.derived) :
  FourVector._calculate_derived_quantities L px py pz E = Ok d ->
  (exists s, math.sqrt s = Ok (FourVector.d_pt d)) /\
  math.atan2 L py px = Ok (FourVector.d_phi d) /\
  (exists p, magnitude L px py pz = Ok p /\
     (eq (Float p) (abs pz) = true ->
      FourVector.d_eta d = if ge pz (Int 0) then infinity else neg_infinity)) /\
  (exists r, math.sqrt r = Ok (FourVector.d_M d)).
Proof.
  unfold FourVector._calculate_derived_quantities. intros H.
  bind_inv H as s2 Hs2. bind_inv H as pt Hpt. bind_inv H as phi Hphi.
  bind_inv H as s3 Hs3. bind_inv H as p Hp. bind_inv H as eta Heta.
  bind_inv H as e2 He2. bind_inv H as p2 Hp2. bind_inv H as dd Hdd.
  bind_inv H as M HM. injection H as <-. cbn.
  split; [exists s2; exact Hpt |].
  split; [exact Hphi |].
  split; [| eexists; exact HM].
  exists p. split.
  - unfold magnitude. rewrite Hs3. exact Hp.
  - intros Heq. unfold ne in Heta. rewrite Heq in Heta. cbn in Heta.
    injection Heta as <-. destruct (ge pz (Int 0)); reflexivity.
Qed.

Lemma init_inv (L : libm) (c : variant) (px py pz E : number) (v : instance) :
  FourVector.__init__ L c px py pz E = Ok v ->
  __class__ v = c /\ _px v = px /\ _py v = py /\ _pz v = pz /\ _E v = E /\
  (exists s, math.sqrt s = Ok (_pt v)) /\
  math.atan2 L py px = Ok (_phi v) /\
  (exists p, magnitude L px py pz = Ok p /\
     (eq (Float p) (abs pz) = true ->
      _eta v = if ge pz (Int 0) then infinity else neg_infinity)) /\
  (exists r, math.sqrt r = Ok (_M v)).
Proof.
  unfold FourVector.__init__. intros H. bind_inv H as d Hd.
  injection H as <-. cbn.
  repeat (split; [reflexivity |]).
  exact (calculate_derived_inv L px py pz E d Hd).
Qed.

(** Every instance a program can hold comes out of the base initialiser. *)
Lemma constructed_init (L : libm) (v : instance) :
  constructed L v ->
  exists c px py pz E, FourVector.__init__ L c px py pz E = Ok v.
Proof.
  intros Hv. destruct Hv as
    [px py pz E v H | px py pz M v H | pt eta phi E v H | pt eta phi M v H
    | a b v _ _ H | a b v _ _ H].
  - do 5 eexists. exact H.
  - unfold PxPyPzMFourVector.__init__ in H.
    bind_inv H as s Hs. bind_inv H as E HE. do 5 eexists. exact H.
  - unfold PtEtaPhiEFourVector.__init__ in H.
    bind_inv H as c Hc. bind_inv H as px Hpx. bind_inv H as s Hs.
    bind_inv H as py Hpy. bind_inv H as h Hh. bind_inv H as pz Hpz.
    do 5 eexists. exact H.
  - unfold PtEtaPhiMFourVector.__init__ in H.
    bind_inv H as c Hc. bind_inv H as px Hpx. bind_inv H as s Hs.
    bind_inv H as py Hpy. bind_inv H as h Hh. bind_inv H as pz Hpz.
    bind_inv H as s4 Hs4. bind_inv H as E HE.
    do 5 eexists. exact H.
  - unfold add, binary_op, __add__ in H.
    bind_inv H as r Hr.
    bind_inv Hr as px Hpx. bind_inv Hr as py Hpy. bind_inv Hr as pz Hpz.
    bind_inv Hr as E HE. bind_inv Hr as w Hw. injection Hr as <-.
    injection H as <-. do 5 eexists. exact Hw.
  - unfold subtract, binary_op, __sub__ in H.
    bind_inv H as r Hr.
    bind_inv Hr as px Hpx. bind_inv Hr as py Hpy. bind_inv Hr as pz Hpz.
    bind_inv Hr as E HE. bind_inv Hr as w Hw. injection Hr as <-.
    injection H as <-. do 5 eexists. exact Hw.
Qed.

(** ** The claims on Python's numbers *)

(** Statements that hold for every C library are applied, in the examples
    below, to this one: [pow] squares, and the other functions answer their
    value at zero. *)
Ltac pose_libm L :=
  pose (L := {| c_pow := fun x _ => x * x;
                c_log := fun _ => 0;
                c_atan2 := fun _ _ => 0;
                c_cos := fun _ => 1;
                c_sin := fun _ => 0;
                c_sinh := fun _ => 0 |}).

(** The constructors and operators as equations. *)
Lemma PxPyPzM_unfold (L : libm) (px py pz M : number) :
  PxPyPzMFourVector.__init__ L px py pz M =
  (E <- energy L px py pz M ;;
   FourVector.__init__ L cPxPyPzM px py pz (Float E)).
Proof.
  unfold PxPyPzMFourVector.__init__, energy.
  destruct (sq_sum4 L px py pz M); reflexivity.
Qed.

Lemma PtEtaPhiE_unfold (L : libm) (pt eta phi E : number) :
  PtEtaPhiEFourVector.__init__ L pt eta phi E =
  (c <- cartesian L pt eta phi ;;
   let '(px, py, pz) := c in
   FourVector.__init__ L cPtEtaPhiE px py pz E).
Proof.
  unfold PtEtaPhiEFourVector.__init__, cartesian.
  destruct (math.cos L phi) as [c |]; [cbn [bind] | reflexivity].
  destruct (number_mul pt (Float c)) as [px |]; [cbn [bind] | reflexivity].
  destruct (math.sin L phi) as [s |]; [cbn [bind] | reflexivity].
  destruct (number_mul pt (Float s)) as [py |]; [cbn [bind] | reflexivity].
  destruct (math.sinh L eta) as [h |]; [cbn [bind] | reflexivity].
  destruct (number_mul pt (Float h)) as [pz |]; reflexivity.
Qed.

Lemma PtEtaPhiM_unfold (L : libm) (pt eta phi M : number) :
  PtEtaPhiMFourVector.__init__ L pt eta phi M =
  (c <- cartesian L pt eta phi ;;
   let '(px, py, pz) := c in
   E <- energy L px py pz M ;;
   FourVector.__init__ L cPtEtaPhiM px py pz (Float E)).
Proof.
  unfold PtEtaPhiMFourVector.__init__, cartesian, energy.
  destruct (math.cos L phi) as [c |]; [cbn [bind] | reflexivity].
  destruct (number_mul pt (Float c)) as [px |]; [cbn [bind] | reflexivity].
  destruct (math.sin L phi) as [s |]; [cbn [bind] | reflexivity].
  destruct (number_mul pt (Float s)) as [py |]; [cbn [bind] | reflexivity].
  destruct (math.sinh L eta) as [h |]; [cbn [bind] | reflexivity].
  destruct (number_mul pt (Float h)) as [pz |]; [cbn [bind] | reflexivity].
  destruct (sq_sum4 L px py pz M); reflexivity.
Qed.

(** C1, refuted as stated.  On the finite inputs [(10**200, 0, 0, 0)] the
    class [PxPyPzMFourVector] stores no energy: the constructor raises
    [OverflowError], whatever the C library. *)
Lemma canonicalization_overflows :
  exists e, e = OverflowError /\
    forall L : libm,
      PxPyPzMFourVector.__init__ L (Int (10 ^ 200)) (Int 0) (Int 0) (Int 0)
      = Raise e.
Proof.
  exists OverflowError. split; [reflexivity |].
  intro L. vm_compute. reflexivity.
Qed.

(** C1, amended.  Whenever a constructor of a non-canonical basis returns:
    [PxPyPzMFourVector(px, py, pz, M)] stores [px], [py], [pz] as given and
    the float [E] that [math.sqrt(px**2 + py**2 + pz**2 + M**2)] returned;
    [PtEtaPhiEFourVector(pt, eta, phi, E)] stores the products
    [pt*math.cos(phi)], [pt*math.sin(phi)], [pt*math.sinh(eta)] as Python
    computed them and [E] as given; [PtEtaPhiMFourVector] stores the same
    products and the energy computed from them and the mass in the same
    way. *)
Theorem canonicalization_when_built (L : libm) :
  (forall px py pz M v,
      PxPyPzMFourVector.__init__ L px py pz M = Ok v ->
      FourVector.px v = px /\ FourVector.py v = py /\ FourVector.pz v = pz /\
      exists E, energy L px py pz M = Ok E /\ FourVector.E v = Float E)
  /\
  (forall pt eta phi E v,
      PtEtaPhiEFourVector.__init__ L pt eta phi E = Ok v ->
      cartesian L pt eta phi
        = Ok (FourVector.px v, FourVector.py v, FourVector.pz v) /\
      FourVector.E v = E)
  /\
  (forall pt eta phi M v,
      PtEtaPhiMFourVector.__init__ L pt eta phi M = Ok v ->
      cartesian L pt eta phi
        = Ok (FourVector.px v, FourVector.py v, FourVector.pz v) /\
      exists E,
        energy L (FourVector.px v) (FourVector.py v) (FourVector.pz v) M
          = Ok E /\
        FourVector.E v = Float E).
Proof.
  unfold FourVector.px, FourVector.py, FourVector.pz, FourVector.E.
  split; [| split].
  - intros px py pz M v H. rewrite PxPyPzM_unfold in H.
    bind_inv H as E HE.
    destruct (init_inv _ _ _ _ _ _ _ H) as (_ & -> & -> & -> & -> & _).
    repeat (split; [reflexivity |]). exists E. split; [exact HE | reflexivity].
  - intros pt eta phi E v H. rewrite PtEtaPhiE_unfold in H.
    bind_inv H as c Hc. destruct c as [[px py] pz].
    destruct (init_inv _ _ _ _ _ _ _ H) as (_ & -> & -> & -> & -> & _).
    split; [exact Hc | reflexivity].
  - intros pt eta phi M v H. rewrite PtEtaPhiM_unfold in H.
    bind_inv H as c Hc. destruct c as [[px py] pz].
    bind_inv H as E HE.
    destruct (init_inv _ _ _ _ _ _ _ H) as (_ & -> & -> & -> & -> & _).
    split; [exact Hc |]. exists E. split; [exact HE | reflexivity].
Qed.

Lemma canonicalization_when_built_witness :
  (exists v,
      (forall L,
          PxPyPzMFourVector.__init__ L (Int 0) (Int 0) (Int 0) (Int 1) = Ok v) /\
      FourVector.pz v = Int 0 /\ FourVector.E v = Float 1) /\
  (exists L v,
      PtEtaPhiEFourVector.__init__ L (Int 2) (Int 0) (Int 0) (Int 3) = Ok v /\
      FourVector.px v = Float 2 /\ FourVector.E v = Int 3) /\
  (exists L v,
      PtEtaPhiMFourVector.__init__ L (Int 0) (Int 0) (Int 0) (Int 1) = Ok v /\
      FourVector.px v = Float 0 /\ FourVector.E v = Float 1).
Proof.
  pose_libm L0.
  split; [| split].
  - eexists. split; [intro L; vm_compute; reflexivity |].
    match goal with
    | |- FourVector.pz ?v = _ /\ _ =>
        destruct (proj1 (canonicalization_when_built L0)
                    (Int 0) (Int 0) (Int 0) (Int 1) v
                    ltac:(vm_compute; reflexivity))
          as (_ & _ & Hz & E & HE & HvE)
    end.
    split; [exact Hz |].
    rewrite HvE. vm_compute in HE. injection HE as HE. rewrite HE.
    reflexivity.
  - exists L0. eexists. split; [vm_compute; reflexivity |].
    match goal with
    | |- FourVector.px ?v = _ /\ _ =>
        destruct (proj1 (proj2 (canonicalization_when_built L0))
                    (Int 2) (Int 0) (Int 0) (Int 3) v
                    ltac:(vm_compute; reflexivity))
          as (Hc & HE)
    end.
    split; [reflexivity | exact HE].
  - exists L0. eexists. split; [vm_compute; reflexivity |].
    match goal with
    | |- FourVector.px ?v = _ /\ _ =>
        destruct (proj2 (proj2 (canonicalization_when_built L0))
                    (Int 0) (Int 0) (Int 0) (Int 1) v
                    ltac:(vm_compute; reflexivity))
          as (Hc & E & HE & HvE)
    end.
    split; [reflexivity |].
    rewrite HvE. vm_compute in HE. injection HE as HE. rewrite HE.
    reflexivity.
Defined.




(** C4, refuted as stated.  The instance [a = PxPyPzEFourVector(0.0, 0.0,
    inf, 0.0)] is built, and so is [a - a]; its [pz] is [inf - inf], a nan,
    and its [M] is a nan: [M >= 0] is false. *)
Lemma mass_of_difference_is_nan :
  exists a d,
    (forall L,
        PxPyPzEFourVector.__init__ L
          (Float 0) (Float 0) (Float infinity) (Float 0) = Ok a) /\
    (forall L, subtract L a (ObjFourVector a) = Ok (ObjFourVector d)) /\
    is_nan (FourVector.M d) = true /\
    (0 <=? FourVector.M d) = false.
Proof.
  do 2 eexists.
  split; [intro L; vm_compute; reflexivity |].
  split; [intro L; vm_compute; reflexivity |].
  split; reflexivity.
Qed.

(** C4, amended.  For every instance built by one of the four classes or
    returned by [+] or [-], the [pt] accessor and the [M] accessor return a
    float that is at least zero or a nan, never a negative one.  Where the C
    library computes [log(1.0)] as [0.0], [px=1, py=0, pz=0, E=1] gives
    [M = 0]. *)
Theorem pt_and_M_never_negative (L : libm) :
  (forall v, constructed L v ->
     nonneg_or_nan (FourVector.pt v) = true /\
     nonneg_or_nan (FourVector.M v) = true) /\
  (c_log L 1 = 0 ->
   exists v,
     PxPyPzEFourVector.__init__ L (Int 1) (Int 0) (Int 0) (Int 1) = Ok v /\
     FourVector.M v = 0).
Proof.
  split.
  - intros v Hv.
    destruct (constructed_init L v Hv) as (c & px & py & pz & E & H).
    destruct (init_inv _ _ _ _ _ _ _ H)
      as (_ & _ & _ & _ & _ & (s & Hpt) & _ & _ & (r & HM)).
    split; [exact (math_sqrt_sign s _ Hpt) | exact (math_sqrt_sign r _ HM)].
  - intros Hlog.
    exists (mkInstance cPxPyPzE (Int 1) (Int 0) (Int 0) (Int 1) 1 0 0 0).
    split; [| reflexivity].
    vm_compute in Hlog. vm_compute. rewrite Hlog. vm_compute. reflexivity.
Qed.

Lemma pt_and_M_never_negative_witness :
  (exists v,
      (forall L,
          PxPyPzEFourVector.__init__ L (Int 0) (Int 0) (Int 1) (Int 1) = Ok v) /\
      nonneg_or_nan (FourVector.pt v) = true /\
      nonneg_or_nan (FourVector.M v) = true) /\
  (exists L w,
      c_log L 1 = 0 /\
      PxPyPzEFourVector.__init__ L (Int 1) (Int 0) (Int 0) (Int 1) = Ok w /\
      FourVector.M w = 0).
Proof.
  pose_libm L0.
  split.
  - eexists. split; [intro L; vm_compute; reflexivity |].
    match goal with
    | |- nonneg_or_nan (FourVector.pt ?v) = true /\ _ =>
        exact (proj1 (pt_and_M_never_negative L0) v
                 (built_PxPyPzE L0 (Int 0) (Int 0) (Int 1) (Int 1) v
                    ltac:(vm_compute; reflexivity)))
    end.
  - exists L0.
    destruct (proj2 (pt_and_M_never_negative L0) eq_refl) as (w & Hw & HM).
    exists w. split; [reflexivity |]. split; [exact Hw | exact HM].
Defined.

(** A float below zero is no nan and no zero, and its sign bit is set. *)
Lemma negative_float (f : float) :
  (f <? 0) = true ->
  is_nan f = false /\ (f =? 0) = false /\ get_sign f = true.
Proof.
  intros H.
  assert (Hz : (f =? 0) = false).
  { revert H. rewrite ltb_spec, eqb_spec, Prim2SF_zero.
    unfold SFltb, SFeqb. destruct (SFcompare _ _) as [[] |]; congruence. }
  repeat split.
  - apply not_nan_spec. intros E. revert H.
    rewrite ltb_spec, E. discriminate.
  - exact Hz.
  - unfold get_sign, is_zero. cbv zeta.
    change zero with 0. rewrite Hz. exact H.
Qed.

(** [math.atan2(-0.0, x)] is [-pi] for every float [x] below zero. *)
Lemma math_atan2_lower_edge (L : libm) (fx : float) :
  (fx <? 0) = true -> math.atan2 L (Float (-0)) (Float fx) = Ok (- pi).
Proof.
  intros H. destruct (negative_float fx H) as (Hn & Hz & Hs).
  unfold math.atan2, math.math_2. cbn [as_double bind].
  assert (Hr : math.m_atan2 L (-0) fx = - pi).
  { unfold math.m_atan2. rewrite Hn. cbn [orb].
    change (is_nan (-0)) with false. change (is_infinity (-0)) with false.
    cbv iota. change (-0 =? 0) with true. rewrite orb_true_r.
    unfold copysign at 1. rewrite Hs. reflexivity. }
  rewrite Hr. reflexivity.
Qed.

(** C5, refuted as stated.  [PxPyPzEFourVector(-1.0, -0.0, inf, 0.0)] is
    built, whatever the C library, with [phi = -pi], which is not strictly
    greater than [-pi]; [px] and [py] are real and not both zero.  With all
    four inputs finite, [PxPyPzEFourVector(-1.0, -0.0, 0.0, 1.0)] is built
    with [phi = -pi] by every C library that computes [log(1.0)] as [0.0]. *)
Lemma phi_reaches_minus_pi :
  (exists v,
      (forall L,
          PxPyPzEFourVector.__init__ L
            (Float (-1)) (Float (-0)) (Float infinity) (Float 0) = Ok v) /\
      FourVector.phi v = - pi /\
      (- pi <? FourVector.phi v) = false) /\
  (exists w,
      (forall L, c_log L 1 = 0 ->
          PxPyPzEFourVector.__init__ L
            (Float (-1)) (Float (-0)) (Float 0) (Float 1) = Ok w) /\
      FourVector.phi w = - pi /\
      (- pi <? FourVector.phi w) = false).
Proof.
  split.
  - eexists. split; [intro L; vm_compute; reflexivity |].
    split; reflexivity.
  - exists (mkInstance cPxPyPzE (Float (-1)) (Float (-0)) (Float 0) (Float 1)
              1 0 (- pi) 0).
    split; [| split; reflexivity].
    intros L Hlog.
    vm_compute in Hlog. vm_compute. rewrite Hlog. vm_compute. reflexivity.
Qed.

(** C5, amended.  For every [px] and [py] that are no nan, the [phi]
    accessor of a vector built with them returns a value from [-pi] to [pi],
    both ends included, on a platform whose [atan2] answers in that range;
    and it returns [-pi] itself whenever [px] is a float below zero and [py]
    is [-0.0]. *)
Theorem phi_in_closed_interval (L : libm) :
  (forall px py pz E v,
      atan2_within_pi L -> not_nan px = true -> not_nan py = true ->
      PxPyPzEFourVector.__init__ L px py pz E = Ok v ->
      within_pi (FourVector.phi v) = true) /\
  (forall fx pz E v,
      (fx <? 0) = true ->
      PxPyPzEFourVector.__init__ L (Float fx) (Float (-0)) pz E = Ok v ->
      FourVector.phi v = - pi).
Proof.
  split.
  - intros px py pz E v HL Hx Hy H.
    destruct (init_inv _ _ _ _ _ _ _ H)
      as (_ & _ & _ & _ & _ & _ & Hphi & _).
    exact (math_atan2_range L py px _ HL Hy Hx Hphi).
  - intros fx pz E v Hfx H.
    destruct (init_inv _ _ _ _ _ _ _ H)
      as (_ & _ & _ & _ & _ & _ & Hphi & _).
    rewrite (math_atan2_lower_edge L fx Hfx) in Hphi.
    injection Hphi as Hphi. symmetry. exact Hphi.
Qed.

Lemma phi_in_closed_interval_witness :
  exists v w,
    (forall L,
        PxPyPzEFourVector.__init__ L
          (Float (-1)) (Float 0) (Float infinity) (Float 0) = Ok v) /\
    (forall L,
        PxPyPzEFourVector.__init__ L
          (Float neg_infinity) (Float (-0)) (Float 0) (Float 0) = Ok w) /\
    FourVector.phi v = pi /\
    within_pi (FourVector.phi v) = true /\
    FourVector.phi w = - pi.
Proof.
  pose_libm L0.
  do 2 eexists.
  split; [intro L; vm_compute; reflexivity |].
  split; [intro L; vm_compute; reflexivity |].
  split; [reflexivity |].
  split.
  - match goal with
    | |- within_pi (FourVector.phi ?v) = true =>
        apply (proj1 (phi_in_closed_interval L0)
                 (Float (-1)) (Float 0) (Float infinity) (Float 0) v)
    end.
    + intros y x. reflexivity.
    + reflexivity.
    + reflexivity.
    + vm_compute. reflexivity.
  - match goal with
    | |- FourVector.phi ?w = _ =>
        apply (proj2 (phi_in_closed_interval L0)
                 neg_infinity (Float 0) (Float 0) w)
    end.
    + reflexivity.
    + vm_compute. reflexivity.
Defined.



Lemma subtract_unfold (L : libm) (a b : instance) :
  subtract L a (ObjFourVector b) =
  (px <- number_sub (_px a) (_px b) ;;
   py <- number_sub (_py a) (_py b) ;;
   pz <- number_sub (_pz a) (_pz b) ;;
   E <- number_sub (_E a) (_E b) ;;
   v <- PxPyPzEFourVector.__init__ L px py pz E ;;
   Ok (ObjFourVector v)).
Proof.
  unfold subtract, binary_op, __sub__,
    FourVector.px, FourVector.py, FourVector.pz, FourVector.E.
  destruct (number_sub (_px a) (_px b)); [cbn [bind] | reflexivity].
  destruct (number_sub (_py a) (_py b)); [cbn [bind] | reflexivity].
  destruct (number_sub (_pz a) (_pz b)); [cbn [bind] | reflexivity].
  destruct (number_sub (_E a) (_E b)); [cbn [bind] | reflexivity].
  destruct (PxPyPzEFourVector.__init__ L _ _ _ _); reflexivity.
Qed.




(** C7, refuted as stated.  The instance [a = PxPyPzEFourVector(0.0, 0.0,
    inf, 0.0)] is built, and so is [a - a]; its [pz] is [inf - inf], a nan,
    which does not compare equal to 0. *)
Lemma difference_with_nan :
  exists a d,
    (forall L,
        PxPyPzEFourVector.__init__ L
          (Float 0) (Float 0) (Float infinity) (Float 0) = Ok a) /\
    (forall L, subtract L a (ObjFourVector a) = Ok (ObjFourVector d)) /\
    eq (FourVector.pz d) (Int 0) = false.
Proof.
  do 2 eexists.
  split; [intro L; vm_compute; reflexivity |].
  split; [intro L; vm_compute; reflexivity |].
  reflexivity.
Qed.

(** C7, amended.  For every instance [a] whose four canonical attributes
    are neither infinite nor nan, [a - a] is built, as a
    [PxPyPzEFourVector], and its [px], [py], [pz] and [E] are zeros: each one
    is the int [0] or the float [0.0], and compares equal to 0. *)
Theorem finite_minus_itself_is_zero (L : libm) (a : instance) :
  all_finite a = true ->
  exists d,
    subtract L a (ObjFourVector a) = Ok (ObjFourVector d) /\
    __class__ d = cPxPyPzE /\
    eq (FourVector.px d) (Int 0) = true /\
    eq (FourVector.py d) (Int 0) = true /\
    eq (FourVector.pz d) (Int 0) = true /\
    eq (FourVector.E d) (Int 0) = true.
Proof.
  unfold all_finite. intros H.
  apply andb_true_iff in H. destruct H as [H HE].
  apply andb_true_iff in H. destruct H as [H Hz].
  apply andb_true_iff in H. destruct H as [Hx Hy].
  rewrite subtract_unfold.
  destruct (number_sub_diag _ Hx) as [-> | ->],
    (number_sub_diag _ Hy) as [-> | ->],
    (number_sub_diag _ Hz) as [-> | ->],
    (number_sub_diag _ HE) as [-> | ->];
    (eexists; split; [vm_compute; reflexivity | repeat split; reflexivity]).
Qed.

Lemma finite_minus_itself_is_zero_witness :
  exists a d,
    (forall L,
        PxPyPzEFourVector.__init__ L (Int 0) (Float 0) (Int 1) (Float 1)
        = Ok a) /\
    (forall L, subtract L a (ObjFourVector a) = Ok (ObjFourVector d)) /\
    FourVector.pz d = Int 0 /\
    FourVector.E d = Float 0 /\
    eq (FourVector.E d) (Int 0) = true.
Proof.
  pose_libm L0.
  do 2 eexists.
  split; [intro L; vm_compute; reflexivity |].
  split; [intro L; vm_compute; reflexivity |].
  split; [reflexivity |]. split; [reflexivity |].
  match goal with
  | |- eq (FourVector.E ?d) _ = true =>
      destruct (finite_minus_itself_is_zero L0
                  (mkInstance cPxPyPzE (Int 0) (Float 0) (Int 1) (Float 1)
                     0 infinity 0 1)
                  eq_refl)
        as (d' & Hd & _ & _ & _ & _ & HE)
  end.
  vm_compute in Hd. injection Hd as Hd. rewrite Hd. exact HE.
Defined.

(** C9, refuted as stated.  An operand that is no four-vector but whose
    class defines [__radd__] and [__rsub__] is asked after [__add__] or
    [__sub__] has answered [NotImplemented], and what its method returns is
    the value of [a + x] or [a - x]: here the int 42 and the string
    [coerced], and no failure. *)
Lemma reflected_operand_answers :
  exists a x,
    (forall L,
        PxPyPzEFourVector.__init__ L (Int 0) (Int 0) (Int 0) (Int 0) = Ok a) /\
    isinstance_FourVector x = false /\
    (forall L, add L a x = Ok (ObjNumber (Int 42))) /\
    (forall L, subtract L a x = Ok (ObjStr "coerced")).
Proof.
  eexists.
  exists (ObjOther (Some (fun _ => Ok (ObjNumber (Int 42))))
                   (Some (fun _ => Ok (ObjStr "coerced")))).
  split; [intro L; vm_compute; reflexivity |].
  split; [reflexivity |].
  split; intro L; reflexivity.
Qed.

(** C9, amended.  For every four-vector [a] and every operand [x] that is
    not a four-vector, [__add__] and [__sub__] answer [NotImplemented]
    without coercing [x]; [a + x] and [a - x] then raise the
    unsupported-operand [TypeError] whenever the class of [x] has no
    reflected method for the operator or the method answers
    [NotImplemented] too, which is the case for every int, float, string
    and [None]. *)
Theorem unsupported_unless_reflected (L : libm) (a : instance)
    (x : object) :
  isinstance_FourVector x = false ->
  __add__ L a x = Ok NotImplemented /\
  __sub__ L a x = Ok NotImplemented /\
  (declines op_add x a -> add L a x = Raise TypeError) /\
  (declines op_sub x a -> subtract L a x = Raise TypeError) /\
  (forall op,
      match x with
      | ObjNumber _ | ObjStr _ | ObjNone | NotImplemented => declines op x a
      | _ => True
      end).
Proof.
  intros Hx. unfold declines, add, subtract, binary_op.
  destruct x as [b | n | s | | | radd rsub]; cbn in Hx |- *;
    try discriminate.
  - repeat split; auto.
  - repeat split; auto.
  - repeat split; auto.
  - repeat split; auto.
  - repeat split; auto.
    + destruct radd as [f |]; [intros ->; reflexivity | reflexivity].
    + destruct rsub as [f |]; [intros ->; reflexivity | reflexivity].
Qed.

Lemma unsupported_unless_reflected_witness :
  exists a,
    (forall L,
        PxPyPzEFourVector.__init__ L (Int 0) (Int 0) (Int 0) (Int 0) = Ok a) /\
    (forall L, add L a (ObjNumber (Int 1)) = Raise TypeError) /\
    (forall L, subtract L a (ObjStr "x") = Raise TypeError).
Proof.
  eexists.
  split; [intro L; vm_compute; reflexivity |].
  split; intro L.
  - match goal with
    | |- add L ?a ?x = _ =>
        destruct (unsupported_unless_reflected L a x eq_refl)
          as (_ & _ & H & _ & _)
    end.
    apply H. reflexivity.
  - match goal with
    | |- subtract L ?a ?x = _ =>
        destruct (unsupported_unless_reflected L a x eq_refl)
          as (_ & _ & _ & H & _)
    end.
    apply H. exact I.
Defined.

(** C10, refuted as stated.  [-0.0] compares equal to 0, and
    [PxPyPzEFourVector(-0.0, 0.0, 0.0, 0.0)] is built with [phi = pi], not
    0.  With [px = 0] and [py = 0] an error can be raised as well:
    [PxPyPzEFourVector(0, 0, 0, 10**200)] raises [OverflowError]. *)
Lemma phi_at_negative_zero :
  (exists v,
      (forall L,
          PxPyPzEFourVector.__init__ L
            (Float (-0)) (Float 0) (Float 0) (Float 0) = Ok v) /\
      eq (FourVector.px v) (Int 0) = true /\
      eq (FourVector.py v) (Int 0) = true /\
      FourVector.phi v = pi /\
      (FourVector.phi v =? 0) = false) /\
  (exists e, e = OverflowError /\
      forall L,
        PxPyPzEFourVector.__init__ L (Int 0) (Int 0) (Int 0) (Int (10 ^ 200))
        = Raise e).
Proof.
  split.
  - eexists. split; [intro L; vm_compute; reflexivity |].
    repeat split; reflexivity.
  - exists OverflowError. split; [reflexivity |].
    intro L. vm_compute. reflexivity.
Qed.

(** C10, amended.  For [px] and [py] that both compare equal to 0, with
    [px] other than [-0.0], the two-argument arctangent raises no error and
    returns a zero, and the [phi] accessor of every vector built with them
    returns a float that compares equal to 0. *)
Theorem phi_zero_at_positive_origin (L : libm) (px py pz E : number) :
  eq px (Int 0) = true -> eq py (Int 0) = true -> px <> Float (-0) ->
  (exists f, math.atan2 L py px = Ok f /\ (f =? 0) = true) /\
  (forall v,
      PxPyPzEFourVector.__init__ L px py pz E = Ok v ->
      (FourVector.phi v =? 0) = true).
Proof.
  intros Hx Hy Hs.
  assert (Ha : exists f, math.atan2 L py px = Ok f /\ (f =? 0) = true).
  { destruct (eq_zero_cases px Hx) as [-> | [-> | ->]];
      [| | contradiction];
      destruct (eq_zero_cases py Hy) as [-> | [-> | ->]];
      eexists; (split; [vm_compute; reflexivity | reflexivity]). }
  split; [exact Ha |].
  intros v H.
  destruct (init_inv _ _ _ _ _ _ _ H)
    as (_ & _ & _ & _ & _ & _ & Hphi & _).
  destruct Ha as (f & Hf & Hz).
  rewrite Hf in Hphi. injection Hphi as Hphi.
  unfold FourVector.phi. rewrite <- Hphi. exact Hz.
Qed.

Lemma phi_zero_at_positive_origin_witness :
  exists v w,
    (forall L,
        PxPyPzEFourVector.__init__ L (Int 0) (Int 0) (Int 0) (Int 0) = Ok v) /\
    (forall L,
        PxPyPzEFourVector.__init__ L (Float 0) (Float (-0)) (Int 1) (Int 1)
        = Ok w) /\
    (FourVector.phi v =? 0) = true /\
    (FourVector.phi w =? 0) = true.
Proof.
  pose_libm L0.
  do 2 eexists.
  split; [intro L; vm_compute; reflexivity |].
  split; [intro L; vm_compute; reflexivity |].
  split.
  - match goal with
    | |- (FourVector.phi ?v =? 0) = true =>
        apply (proj2 (phi_zero_at_positive_origin L0
                        (Int 0) (Int 0) (Int 0) (Int 0)
                        eq_refl eq_refl ltac:(discriminate)) v)
    end.
    vm_compute. reflexivity.
  - match goal with
    | |- (FourVector.phi ?w =? 0) = true =>
        apply (proj2 (phi_zero_at_positive_origin L0
                        (Float 0) (Float (-0)) (Int 1) (Int 1)
                        eq_refl eq_refl ltac:(discriminate)) w)
    end.
    vm_compute. reflexivity.
Defined.
